(** * UserOAuthRefreshList: the refresh-token table of the admin console

    A shallow embedding of [web/src/elements/oauth/UserRefreshList.ts].
    The component extends the generic [Table] with three methods
    ([apiEndpoint], [columns], [row]) and one field initialiser ([order]).
    Its collaborators (the generated [authentik-api] client, [Table],
    [ak-forms-delete], lit's [html] tag, lingui's [t] macro) live outside the
    file; they appear here as section variables or as small data types
    holding exactly what the component hands to them. *)

From Stdlib Require Import ZArith Ascii String List.
From stdpp Require Import base option list gmap strings fin_maps.

(** ** Data coming from the API *)

(** A JS [Date], by its time value (milliseconds since the epoch). *)
Definition Date : Type := Z.

(** [item.provider]: the component reads its [name] only. *)
Record Provider := { name : string }.

(** The fields of [ExpiringBaseGrantModel] the component reads.  [pk] and
    [expires] are optional in the generated interface ([item.pk || 0],
    [item.expires?.]); [provider] and [scope] are required.  Primary keys
    are integers. *)
Record ExpiringBaseGrantModel := {
  pk : option Z;
  provider : Provider;
  expires : option Date;
  scope : list string
}.

(** The object literal [apiEndpoint] passes to the list operation. *)
Record Oauth2RefreshTokensListRequest := {
  user : option string;
  ordering : string;
  page : Z;
  pageSize : Z
}.

(** The object literal the delete callback passes: [{ id: ... }]. *)
Record Oauth2RefreshTokensDeleteRequest := { id : Z }.

(** [new TableColumn(title, orderBy?)]. *)
Record TableColumn := { title : string; orderBy : option string }.

(** A promise, by the way it settles. *)
Inductive Promise (A : Type) : Type :=
| Fulfilled (value : A)
| Rejected (reason : string).
Arguments Fulfilled {A} value.
Arguments Rejected {A} reason.

(** The component's own reactive state: the [userId] property and the
    [order] field. *)
Record UserOAuthRefreshList := { userId : option string; order : string }.

(** ** JS operators used by the component *)

(** [x || d] on an optional number: [undefined] and [0] are falsy. *)
Definition js_or (x : option Z) (d : Z) : Z :=
  match x with
  | Some n => if Z.eqb n 0 then d else n
  | None => d
  end.

(** [o?.m()]: [undefined] when the receiver is [undefined]. *)
Definition optional_chain {A B : Type} (o : option A) (m : A -> B) : option B :=
  match o with
  | Some a => Some (m a)
  | None => None
  end.

(** [Array.prototype.join]. *)
Fixpoint join (sep : string) (l : list string) : string :=
  match l with
  | [] => EmptyString
  | x :: rest =>
      match rest with
      | [] => x
      | _ :: _ => x +:+ sep +:+ join sep rest
      end
  end.

Definition nl : string := String "010"%char EmptyString.
Definition dquote : string := String "034"%char EmptyString.

Fixpoint spaces (n : nat) : string :=
  match n with
  | O => EmptyString
  | S k => String " "%char (spaces k)
  end.

(** ** The generated client *)

(** The operations of the generated [Oauth2Api] class, indexed by what
    their promise resolves to.  [AKResponse] is the page type of
    [api/Client].  The component names two of the operations; the class
    also serves authorization codes and single-record reads. *)
Inductive Oauth2Operation (AKResponse : Type -> Type) : Type -> Type :=
| oauth2AuthorizationCodesDelete (requestParameters : Oauth2RefreshTokensDeleteRequest)
    : Oauth2Operation AKResponse unit
| oauth2AuthorizationCodesList (requestParameters : Oauth2RefreshTokensListRequest)
    : Oauth2Operation AKResponse (AKResponse ExpiringBaseGrantModel)
| oauth2AuthorizationCodesRead (requestParameters : Oauth2RefreshTokensDeleteRequest)
    : Oauth2Operation AKResponse ExpiringBaseGrantModel
| oauth2RefreshTokensDelete (requestParameters : Oauth2RefreshTokensDeleteRequest)
    : Oauth2Operation AKResponse unit
| oauth2RefreshTokensList (requestParameters : Oauth2RefreshTokensListRequest)
    : Oauth2Operation AKResponse (AKResponse ExpiringBaseGrantModel)
| oauth2RefreshTokensRead (requestParameters : Oauth2RefreshTokensDeleteRequest)
    : Oauth2Operation AKResponse ExpiringBaseGrantModel.
Arguments oauth2AuthorizationCodesDelete {AKResponse} requestParameters.
Arguments oauth2AuthorizationCodesList {AKResponse} requestParameters.
Arguments oauth2AuthorizationCodesRead {AKResponse} requestParameters.
Arguments oauth2RefreshTokensDelete {AKResponse} requestParameters.
Arguments oauth2RefreshTokensList {AKResponse} requestParameters.
Arguments oauth2RefreshTokensRead {AKResponse} requestParameters.

(** A client instance: each operation acts on the server's table of
    refresh grants (keyed by [pk]) and hands back a promise. *)
Definition Client (AKResponse : Type -> Type) : Type :=
  forall X : Type, Oauth2Operation AKResponse X ->
    gmap Z ExpiringBaseGrantModel -> Promise X * gmap Z ExpiringBaseGrantModel.

(** A page type to run the component with: the results of the page. *)
Record Page (T : Type) : Type := { results : list T }.
Arguments results {T} p.

(** Two clients to run the component against.  [table_client] serves the
    refresh grants from the table: a list returns every record, a delete
    removes the record if it is there; the authorization codes are another
    table and are refused.  [offline_client] rejects every call. *)
Definition table_client : Client Page :=
  fun X op =>
    match op in Oauth2Operation _ X
      return gmap Z ExpiringBaseGrantModel -> Promise X * gmap Z ExpiringBaseGrantModel
    with
    | oauth2RefreshTokensList _ => fun g =>
        (Fulfilled {| results := map snd (map_to_list g) |}, g)
    | oauth2RefreshTokensDelete req => fun g =>
        match g !! id req with
        | Some _ => (Fulfilled tt, delete (id req) g)
        | None => (Rejected "Not found", g)
        end
    | oauth2RefreshTokensRead req => fun g =>
        match g !! id req with
        | Some r => (Fulfilled r, g)
        | None => (Rejected "Not found", g)
        end
    | oauth2AuthorizationCodesDelete _ => fun g => (Rejected "Forbidden", g)
    | oauth2AuthorizationCodesList _ => fun g => (Rejected "Forbidden", g)
    | oauth2AuthorizationCodesRead _ => fun g => (Rejected "Forbidden", g)
    end.

Definition offline_client : Client Page :=
  fun X _ g => (Rejected "Failed to fetch", g).

(** ** Sample data *)

(** A grant of provider "grafana" with key 7, a grant with neither key nor
    expiration, and a clock string for every date. *)
Definition grant7 : ExpiringBaseGrantModel :=
  {| pk := Some 7%Z;
     provider := {| name := "grafana" |};
     expires := Some 1700000000000%Z;
     scope := ["openid"; "email"; "profile"] |}.

Definition bare_grant : ExpiringBaseGrantModel :=
  {| pk := None; provider := {| name := "grafana" |}; expires := None; scope := [] |}.

Definition show_date (d : Date) : string := "11/14/2023, 10:13:20 PM".

Section Component.

(** ** Collaborators declared outside the sources *)

(** [AKResponse<T>] of [api/Client], a page of results. *)
Variable AKResponse : Type -> Type.
(** The client configuration type and [DEFAULT_CONFIG] of [api/Config]. *)
Variable Configuration : Type.
Variable DEFAULT_CONFIG : Configuration.
(** [PAGE_SIZE] of [constants]. *)
Variable PAGE_SIZE : Z.
(** lingui's [t] macro applied to a literal: the message of the active
    locale. *)
Variable t : string -> string.
(** [Date.prototype.toLocaleString]. *)
Variable toLocaleString : Date -> string.

(** A request as it leaves the browser. *)
Inductive Request : Type :=
| Sent {X : Type} (op : Oauth2Operation AKResponse X).

(** [new Oauth2Api(config)]. *)
Variable Oauth2Api : Configuration -> Client AKResponse.

(** ** The state the component runs in *)

Record World := {
  this : UserOAuthRefreshList;
  grants : gmap Z ExpiringBaseGrantModel;
  requests : list Request
}.

(** The state before any request: the component's fields and the server
    table. *)
Definition initial_world (c : UserOAuthRefreshList)
    (g : gmap Z ExpiringBaseGrantModel) : World :=
  {| this := c; grants := g; requests := [] |}.

(** Methods are state transformers over [World]. *)
Definition M (A : Type) : Type := World -> A * World.

Definition ret {A : Type} (a : A) : M A := fun w => (a, w).

Definition bind {A B : Type} (m : M A) (k : A -> M B) : M B :=
  fun w => let (a, w') := m w in k a w'.

Notation "'let*' x ':=' m 'in' k" := (bind m (fun x => k))
  (at level 10, x name, m at level 100, k at level 200).

(** Reading [this]. *)
Definition get_this : M UserOAuthRefreshList := fun w => (this w, w).

(** Calling an operation on a client: the request is sent, the server
    table moves as the client says, the promise is the result. *)
Definition call (client : Client AKResponse) {X : Type} (op : Oauth2Operation AKResponse X)
  : M (Promise X) :=
  fun w =>
    let (p, g) := client X op (grants w) in
    (p, {| this := this w; grants := g; requests := requests w ++ [Sent op] |}).

(** ** Template results *)

(** What a template expression can evaluate to in this component. *)
Inductive Value : Type :=
| VString (s : string)
| VUndefined
| VObject (obj : ExpiringBaseGrantModel)
| VFunction (f : M (Promise unit)).

(** [html`...`]: the static strings and the values between them. *)
Record TemplateResult := { strings : list string; values : list Value }.

Definition html (ss : list string) (vs : list Value) : TemplateResult :=
  {| strings := ss; values := vs |}.

(** A possibly undefined string as a template value. *)
Definition of_optional (o : option string) : Value :=
  match o with
  | Some s => VString s
  | None => VUndefined
  end.

(** ** The component *)

(** The class as constructed: [userId] unset, [order = "-expires"]. *)
Definition new_UserOAuthRefreshList : UserOAuthRefreshList :=
  {| userId := None; order := "-expires" |}.

Definition apiEndpoint (page : Z) : M (Promise (AKResponse ExpiringBaseGrantModel)) :=
  let* self := get_this in
  call (Oauth2Api DEFAULT_CONFIG)
    (oauth2RefreshTokensList
       {| user := userId self;
          ordering := "expires";
          page := page;
          pageSize := PAGE_SIZE |}).

Definition columns : M (list TableColumn) :=
  ret [ {| title := t "Provider"; orderBy := Some (t "provider") |};
        {| title := t "Expires"; orderBy := Some (t "expires") |};
        {| title := t "Scopes"; orderBy := Some (t "scope") |};
        {| title := ""; orderBy := None |} ].

(** The static strings of the fourth cell's template. *)
Definition delete_form_strings : list string :=
  [ nl +:+ spaces 12 +:+ "<ak-forms-delete" +:+ nl +:+ spaces 16 +:+ ".obj=";
    nl +:+ spaces 16 +:+ "objectLabel=";
    nl +:+ spaces 16 +:+ ".delete=";
    ">" +:+ nl +:+ spaces 16 +:+ "<button slot=" +:+ dquote +:+ "trigger" +:+ dquote
      +:+ " class=" +:+ dquote +:+ "pf-c-button pf-m-danger" +:+ dquote +:+ ">"
      +:+ nl +:+ spaces 20;
    nl +:+ spaces 16 +:+ "</button>" +:+ nl +:+ spaces 12 +:+ "</ak-forms-delete>" ].

(** The arrow function bound to [.delete]. *)
Definition delete_callback (item : ExpiringBaseGrantModel) : M (Promise unit) :=
  call (Oauth2Api DEFAULT_CONFIG)
    (oauth2RefreshTokensDelete {| id := js_or (pk item) 0 |}).

Definition row (item : ExpiringBaseGrantModel) : M (list TemplateResult) :=
  ret [ html [""; ""] [VString (name (provider item))];
        html [""; ""] [of_optional (optional_chain (expires item) toLocaleString)];
        html [""; ""] [VString (join ", " (scope item))];
        html delete_form_strings
          [ VObject item;
            VString (t "Refresh Code");
            VFunction (delete_callback item);
            VString (t "Delete Refresh Code") ] ].

(** ** The component seen from its collaborators *)

(** lit commits a primitive bound in text position as its string, and
    [undefined] as the empty string. *)
Definition commit_text (v : Value) : option string :=
  match v with
  | VString s => Some s
  | VUndefined => Some EmptyString
  | VObject _ | VFunction _ => None
  end.

(** The text of a template whose bindings are all in text position. *)
Fixpoint render_text (ss : list string) (vs : list Value) : option string :=
  match ss, vs with
  | [s], [] => Some s
  | s :: ss', v :: vs' =>
      match commit_text v, render_text ss' vs' with
      | Some tx, Some rest => Some (s +:+ tx +:+ rest)
      | _, _ => None
      end
  | _, _ => None
  end.

Definition cell_text (c : TemplateResult) : option string :=
  render_text (strings c) (values c).

(** The function a delete form finds in its [.delete] property: the third
    binding of the template. *)
Definition bound_delete (c : TemplateResult) : option (M (Promise unit)) :=
  match values c !! 2%nat with
  | Some (VFunction f) => Some f
  | _ => None
  end.

(** The delete form of a rendered row runs its [.delete] once the user
    confirms. *)
Definition confirm_delete (item : ExpiringBaseGrantModel) : M (option (Promise unit)) :=
  let* cells := row item in
  match cells !! 3%nat with
  | Some c =>
      match bound_delete c with
      | Some f => let* p := f in ret (Some p)
      | None => ret None
      end
  | None => ret None
  end.

(** Everything the table and its delete forms can make the component do. *)
Inductive Action : Type :=
| FetchPage (page : Z)
| RenderHeader
| RenderRow (item : ExpiringBaseGrantModel)
| ConfirmDelete (item : ExpiringBaseGrantModel).

Definition perform (a : Action) : M unit :=
  match a with
  | FetchPage page => let* _ := apiEndpoint page in ret tt
  | RenderHeader => let* _ := columns in ret tt
  | RenderRow item => let* _ := row item in ret tt
  | ConfirmDelete item => let* _ := confirm_delete item in ret tt
  end.

Fixpoint perform_all (acts : list Action) : M unit :=
  match acts with
  | [] => ret tt
  | a :: rest => let* _ := perform a in perform_all rest
  end.

(** The two operations the component names. *)
Definition is_refresh_list (r : Request) : bool :=
  match r with
  | Sent op =>
      match op with
      | oauth2RefreshTokensList _ => true
      | _ => false
      end
  end.

Definition is_refresh_delete (r : Request) : bool :=
  match r with
  | Sent op =>
      match op with
      | oauth2RefreshTokensDelete _ => true
      | _ => false
      end
  end.

Definition allowed (r : Request) : bool := is_refresh_list r || is_refresh_delete r.

(** The request an action makes a component with fields [c] send, if it
    sends one. *)
Definition sent_by (c : UserOAuthRefreshList) (a : Action) : list Request :=
  match a with
  | FetchPage page =>
      [Sent (oauth2RefreshTokensList
               {| user := userId c; ordering := "expires";
                  page := page; pageSize := PAGE_SIZE |})]
  | ConfirmDelete item =>
      [Sent (oauth2RefreshTokensDelete {| id := js_or (pk item) 0 |})]
  | RenderHeader | RenderRow _ => []
  end.

Definition is_delete (a : Action) : bool :=
  match a with
  | ConfirmDelete _ => true
  | _ => false
  end.


(** ** What a REST client promises about the server table *)

(** Listing is a read. *)
Definition list_reads (client : Client AKResponse) : Prop :=
  forall req g, (client _ (oauth2RefreshTokensList req) g).2 = g.

(** Deleting removes the addressed record or, when it fails, nothing. *)
Definition delete_removes (client : Client AKResponse) : Prop :=
  forall req g,
    (client _ (oauth2RefreshTokensDelete req) g).2 = g \/
    (client _ (oauth2RefreshTokensDelete req) g).2 = delete (id req) g.

(** The entity's field names, as the table's order keys spell them. *)
Definition grant_fields : list string := ["pk"; "provider"; "expires"; "scope"].

(** ** Running the methods *)

Lemma call_run (client : Client AKResponse) {X : Type} (op : Oauth2Operation AKResponse X) w :
  call client op w =
    ((client X op (grants w)).1,
     {| this := this w;
        grants := (client X op (grants w)).2;
        requests := requests w ++ [Sent op] |}).
Proof. unfold call. destruct (client X op (grants w)) as [p g]. reflexivity. Qed.

Lemma apiEndpoint_run page w :
  apiEndpoint page w =
    call (Oauth2Api DEFAULT_CONFIG)
      (oauth2RefreshTokensList
         {| user := userId (this w); ordering := "expires";
            page := page; pageSize := PAGE_SIZE |}) w.
Proof. reflexivity. Qed.

Lemma row_run item w : (row item w).2 = w.
Proof. reflexivity. Qed.

Lemma columns_run w : (columns w).2 = w.
Proof. reflexivity. Qed.

Lemma row_bound_delete item w :
  (row item w).1 !! 3%nat ≫= bound_delete = Some (delete_callback item).
Proof. reflexivity. Qed.

Lemma confirm_delete_run item w :
  confirm_delete item w =
    (Some (delete_callback item w).1, (delete_callback item w).2).
Proof.
  unfold confirm_delete, bind. cbn.
  destruct (delete_callback item w) as [p w']. reflexivity.
Qed.

Lemma js_or_defined n : js_or (Some n) 0 = n.
Proof.
  unfold js_or. destruct (Z.eqb_spec n 0) as [-> | _]; reflexivity.
Qed.

Lemma js_or_falsy x : x = None \/ x = Some 0%Z -> js_or x 0 = 0%Z.
Proof. intros [-> | ->]; reflexivity. Qed.

Lemma append_empty_r (s : string) : s +:+ EmptyString = s.
Proof.
  induction s as [| c s IH]; [reflexivity |].
  change (String c (s +:+ EmptyString) = String c s). by f_equal.
Qed.

Lemma join_concat sep l : join sep l = String.concat sep l.
Proof.
  induction l as [| x rest IH]; [reflexivity |].
  destruct rest as [| y rest']; [reflexivity |].
  cbn [join String.concat]. cbn [join] in IH. rewrite IH. reflexivity.
Qed.

(** The requests a run adds, and what it does to the table, action by
    action. *)
Lemma perform_requests a w :
  exists sent, requests (perform a w).2 = requests w ++ sent /\
               Forall (fun r => allowed r = true) sent.
Proof.
  destruct a as [page | | item | item].
  - exists [Sent (oauth2RefreshTokensList
        {| user := userId (this w); ordering := "expires";
           page := page; pageSize := PAGE_SIZE |})].
    split; [| repeat constructor].
    unfold perform, bind. rewrite apiEndpoint_run, call_run. reflexivity.
  - exists []. split; [| constructor]. cbn. by rewrite app_nil_r.
  - exists []. split; [| constructor]. cbn. by rewrite app_nil_r.
  - exists [Sent (oauth2RefreshTokensDelete {| id := js_or (pk item) 0 |})].
    split; [| repeat constructor].
    unfold perform, bind. rewrite confirm_delete_run.
    unfold delete_callback. rewrite call_run. reflexivity.
Qed.

Lemma perform_all_requests acts : forall w,
  exists sent, requests (perform_all acts w).2 = requests w ++ sent /\
               Forall (fun r => allowed r = true) sent.
Proof.
  induction acts as [| a rest IH]; intros w.
  - exists []. split; [| constructor]. cbn. by rewrite app_nil_r.
  - cbn [perform_all]. unfold bind.
    destruct (perform_requests a w) as (s1 & E1 & F1).
    destruct (perform a w) as [u w1]. cbn in E1.
    destruct (IH w1) as (s2 & E2 & F2).
    exists (s1 ++ s2). split.
    + rewrite E2, E1, app_assoc. reflexivity.
    + apply Forall_app. split; assumption.
Qed.

Lemma perform_grants a w :
  list_reads (Oauth2Api DEFAULT_CONFIG) ->
  delete_removes (Oauth2Api DEFAULT_CONFIG) ->
  grants (perform a w).2 ⊆ grants w.
Proof.
  intros Hl Hd. destruct a as [page | | item | item].
  - unfold perform, bind. rewrite apiEndpoint_run, call_run. cbn. by rewrite Hl.
  - reflexivity.
  - reflexivity.
  - unfold perform, bind. rewrite confirm_delete_run.
    unfold delete_callback. rewrite call_run. cbn.
    destruct (Hd {| id := js_or (pk item) 0 |} (grants w)) as [-> | ->].
    + reflexivity.
    + apply delete_subseteq.
Qed.

Lemma perform_all_grants acts :
  list_reads (Oauth2Api DEFAULT_CONFIG) ->
  delete_removes (Oauth2Api DEFAULT_CONFIG) ->
  forall w, grants (perform_all acts w).2 ⊆ grants w.
Proof.
  intros Hl Hd. induction acts as [| a rest IH]; intros w; [reflexivity |].
  cbn [perform_all]. unfold bind.
  pose proof (perform_grants a w Hl Hd) as H1.
  destruct (perform a w) as [u w1]. cbn in H1.
  transitivity (grants w1); [apply IH | exact H1].
Qed.

(** ** The component's properties *)

(** C1.  Against a REST client (listing reads, deleting removes the
    addressed record or nothing), whatever the table and the delete forms
    make the component do, every grant on the server afterwards was there
    before, unchanged; fetching a page leaves the table as it is, rendering
    a row changes nothing at all, and confirming the delete of a record with
    identifier [n] sends the delete operation with [id = n], after which the
    table is the old one or the old one without [n]. *)
Theorem grants_change_only_by_deletion :
  list_reads (Oauth2Api DEFAULT_CONFIG) ->
  delete_removes (Oauth2Api DEFAULT_CONFIG) ->
  (forall acts w, grants (perform_all acts w).2 ⊆ grants w) /\
  (forall page w, grants (apiEndpoint page w).2 = grants w) /\
  (forall item w, (row item w).2 = w) /\
  (forall item n w, pk item = Some n ->
     requests (confirm_delete item w).2 =
       requests w ++ [Sent (oauth2RefreshTokensDelete {| id := n |})] /\
     (grants (confirm_delete item w).2 = grants w \/
      grants (confirm_delete item w).2 = delete n (grants w))).
Proof.
  intros Hl Hd. split; [| split; [| split]].
  - intros acts w. by apply perform_all_grants.
  - intros page w. rewrite apiEndpoint_run, call_run. cbn. apply Hl.
  - intros item w. apply row_run.
  - intros item n w Hpk. rewrite confirm_delete_run.
    unfold delete_callback. rewrite call_run, Hpk, js_or_defined. cbn.
    split; [reflexivity |]. apply (Hd {| id := n |}).
Qed.

(** C2.  For every page number, [apiEndpoint] sends one request, the
    refresh-token list operation with that page, [PAGE_SIZE] as page size and
    the [userId] property as user, and its result is the promise the client
    returned for that call. *)
Theorem apiEndpoint_lists_one_page page w :
  let op := oauth2RefreshTokensList
              {| user := userId (this w); ordering := "expires";
                 page := page; pageSize := PAGE_SIZE |} in
  (apiEndpoint page w).1 = (Oauth2Api DEFAULT_CONFIG _ op (grants w)).1 /\
  requests (apiEndpoint page w).2 = requests w ++ [Sent op] /\
  grants (apiEndpoint page w).2 = (Oauth2Api DEFAULT_CONFIG _ op (grants w)).2 /\
  this (apiEndpoint page w).2 = this w.
Proof.
  intros op. rewrite apiEndpoint_run, call_run. repeat split.
Qed.

(** C3.  For every record, [row] returns four cells and changes nothing:
    the provider's name, the localized expiration (undefined when the record
    has none), the scopes joined by a comma and a space in their order, and
    the delete form.  The form is the [ak-forms-delete] element with the
    record on [.obj], the message of "Refresh Code" on [objectLabel], on
    [.delete] the call of the refresh-token delete operation with the
    record's identifier (0 when it has none), and a danger button in the
    trigger slot labelled with the message of "Delete Refresh Code".  The
    bound values are the record's fields as they are. *)
Theorem row_maps_fields_to_cells item w :
  exists c1 c2 c3 c4,
    row item w = ([c1; c2; c3; c4], w) /\
    (c1 = html [""; ""] [VString (name (provider item))] /\
     cell_text c1 = Some (name (provider item))) /\
    c2 = html [""; ""]
           [match expires item with
            | Some d => VString (toLocaleString d)
            | None => VUndefined
            end] /\
    (c3 = html [""; ""] [VString (join ", " (scope item))] /\
     cell_text c3 = Some (String.concat ", " (scope item))) /\
    (strings c4 =
       [ "
            <ak-forms-delete
                .obj=";
         "
                objectLabel=";
         "
                .delete=";
         ">
                <button slot=" +:+ String "034"%char
           ("trigger" +:+ String "034"%char
              (" class=" +:+ String "034"%char
                 ("pf-c-button pf-m-danger" +:+ String "034"%char
                    ">
                    ")));
         "
                </button>
            </ak-forms-delete>" ] /\
     values c4 !! 0%nat = Some (VObject item) /\
     values c4 !! 1%nat = Some (VString (t "Refresh Code")) /\
     values c4 !! 2%nat =
       Some (VFunction
               (call (Oauth2Api DEFAULT_CONFIG)
                  (oauth2RefreshTokensDelete
                     {| id := match pk item with
                              | Some n => n
                              | None => 0
                              end |}))) /\
     bound_delete c4 =
       Some (call (Oauth2Api DEFAULT_CONFIG)
               (oauth2RefreshTokensDelete
                  {| id := match pk item with
                           | Some n => n
                           | None => 0
                           end |})) /\
     values c4 !! 3%nat = Some (VString (t "Delete Refresh Code")) /\
     length (values c4) = 4%nat).
Proof.
  assert (Hid : js_or (pk item) 0 = match pk item with Some n => n | None => 0%Z end).
  { destruct (pk item) as [n |]; [apply js_or_defined | reflexivity]. }
  do 4 eexists. split; [reflexivity |].
  split; [split; [reflexivity |] |].
  { cbn. by rewrite append_empty_r. }
  split; [by destruct (expires item) |].
  split; [split; [reflexivity |] |].
  { cbn. by rewrite append_empty_r, join_concat. }
  split; [reflexivity |].
  split; [reflexivity |].
  split; [reflexivity |].
  split.
  { change (Some (VFunction (delete_callback item)) = Some (VFunction (call
      (Oauth2Api DEFAULT_CONFIG)
      (oauth2RefreshTokensDelete
         {| id := match pk item with Some n => n | None => 0%Z end |})))).
    unfold delete_callback. by rewrite Hid. }
  split.
  { change (Some (delete_callback item) = Some (call
      (Oauth2Api DEFAULT_CONFIG)
      (oauth2RefreshTokensDelete
         {| id := match pk item with Some n => n | None => 0%Z end |}))).
    unfold delete_callback. by rewrite Hid. }
  split; reflexivity.
Qed.

(** C4.  [columns] always returns, in this order, the columns of the
    provider, of the expiration and of the scopes, each ordered by the
    message of that field's name, and a last column with an empty title and
    no order key; every order key comes from a field of the grant record. *)
Theorem columns_follow_the_entity w :
  exists cols,
    columns w = (cols, w) /\
    map title cols = [t "Provider"; t "Expires"; t "Scopes"; ""] /\
    map orderBy cols = [Some (t "provider"); Some (t "expires"); Some (t "scope"); None] /\
    Forall (fun c =>
              match orderBy c with
              | Some key => exists f, f ∈ grant_fields /\ key = t f
              | None => title c = ""
              end) cols.
Proof.
  eexists. split; [reflexivity |]. split; [reflexivity |]. split; [reflexivity |].
  unfold grant_fields.
  repeat constructor; cbn; eexists; (split; [| reflexivity]); set_solver.
Qed.

(** C5.  Whatever the table and the delete forms make the component do,
    every request it sends is the refresh-token list or the refresh-token
    delete operation; [apiEndpoint] sends the first, the delete callback of
    a row the second, and [columns] and [row] send nothing. *)
Theorem only_list_and_delete_are_invoked :
  (forall acts w, exists sent,
     requests (perform_all acts w).2 = requests w ++ sent /\
     Forall (fun r => is_refresh_list r || is_refresh_delete r = true) sent) /\
  (forall page w, exists req,
     requests (apiEndpoint page w).2 = requests w ++ [Sent (oauth2RefreshTokensList req)]) /\
  (forall item w, exists req,
     requests (confirm_delete item w).2 =
       requests w ++ [Sent (oauth2RefreshTokensDelete req)]) /\
  (forall item w, requests (row item w).2 = requests w) /\
  (forall w, requests (columns w).2 = requests w).
Proof.
  split; [| split; [| split; [| split]]].
  - intros acts w. apply perform_all_requests.
  - intros page w. eexists. rewrite apiEndpoint_run, call_run. reflexivity.
  - intros item w. eexists. rewrite confirm_delete_run.
    unfold delete_callback. rewrite call_run. reflexivity.
  - reflexivity.
  - reflexivity.
Qed.

(** C6.  [apiEndpoint] and the delete callback of a row hand back the
    client's promise as it is: whatever the client returns for the one
    request they send is their result, so a promise rejected with some
    reason comes back rejected with that reason; one request is sent (none
    is repeated) and the component's fields stay as they were. *)
Theorem client_promises_pass_through :
  (forall page w,
     let op := oauth2RefreshTokensList
                 {| user := userId (this w); ordering := "expires";
                    page := page; pageSize := PAGE_SIZE |} in
     (apiEndpoint page w).1 = (Oauth2Api DEFAULT_CONFIG _ op (grants w)).1 /\
     (forall reason,
        (Oauth2Api DEFAULT_CONFIG _ op (grants w)).1 = Rejected reason ->
        (apiEndpoint page w).1 = Rejected reason) /\
     requests (apiEndpoint page w).2 = requests w ++ [Sent op] /\
     this (apiEndpoint page w).2 = this w) /\
  (forall item w,
     let op := oauth2RefreshTokensDelete {| id := js_or (pk item) 0 |} in
     (confirm_delete item w).1 = Some (Oauth2Api DEFAULT_CONFIG _ op (grants w)).1 /\
     (forall reason,
        (Oauth2Api DEFAULT_CONFIG _ op (grants w)).1 = Rejected reason ->
        (confirm_delete item w).1 = Some (Rejected reason)) /\
     requests (confirm_delete item w).2 = requests w ++ [Sent op] /\
     this (confirm_delete item w).2 = this w).
Proof.
  split.
  - intros page w op. rewrite apiEndpoint_run, call_run. cbn.
    repeat split. intros reason H. exact H.
  - intros item w op. rewrite confirm_delete_run.
    unfold delete_callback. rewrite call_run. cbn.
    repeat split. intros reason H. f_equal. exact H.
Qed.

(** C7.  For every page number and whatever the component's fields hold,
    the list request carries the ordering "expires"; the [order] field is
    declared as "-expires", which is another string. *)
Theorem list_ordering_is_fixed page w :
  exists req,
    requests (apiEndpoint page w).2 = requests w ++ [Sent (oauth2RefreshTokensList req)] /\
    ordering req = "expires" /\
    order new_UserOAuthRefreshList = "-expires" /\
    ordering req <> order new_UserOAuthRefreshList.
Proof.
  eexists. rewrite apiEndpoint_run, call_run. cbn.
  split; [reflexivity |]. split; [reflexivity |]. split; [reflexivity |].
  discriminate.
Qed.

(** C8.  [columns] returns four columns and, for every record, [row]
    returns four cells: a header and a row have the same length. *)
Theorem header_and_row_have_four_cells item w w' :
  length (columns w).1 = 4%nat /\
  length (row item w').1 = 4%nat /\
  length (row item w').1 = length (columns w).1.
Proof. repeat split. Qed.

(** C9.  [row] returns its four cells for every record and leaves the
    state alone.  When the record has no expiration the second cell binds
    [undefined], which shows as the empty text; when the record has no
    identifier, or the identifier 0, confirming its delete form sends the
    delete operation with [id = 0] and gives the client's promise. *)
Theorem row_is_total_without_optionals item w :
  (exists cells, row item w = (cells, w) /\ length cells = 4%nat) /\
  (expires item = None ->
     exists c, (row item w).1 !! 1%nat = Some c /\
               values c = [VUndefined] /\
               cell_text c = Some EmptyString) /\
  (pk item = None \/ pk item = Some 0%Z ->
     let op := oauth2RefreshTokensDelete {| id := 0 |} in
     requests (confirm_delete item w).2 = requests w ++ [Sent op] /\
     (confirm_delete item w).1 = Some (Oauth2Api DEFAULT_CONFIG _ op (grants w)).1).
Proof.
  split; [| split].
  - eexists. split; reflexivity.
  - intros He. eexists. cbn. rewrite He. repeat split.
  - intros Hpk op. rewrite confirm_delete_run.
    unfold delete_callback. rewrite call_run, (js_or_falsy _ Hpk). cbn.
    split; reflexivity.
Qed.

(** ** Runs of the component *)

Lemma perform_this a w : this (perform a w).2 = this w.
Proof.
  destruct a as [page | | item | item]; try reflexivity.
  - unfold perform, bind. rewrite apiEndpoint_run, call_run. reflexivity.
  - unfold perform, bind. rewrite confirm_delete_run.
    unfold delete_callback. rewrite call_run. reflexivity.
Qed.

Lemma perform_sent a w :
  requests (perform a w).2 = requests w ++ sent_by (this w) a.
Proof.
  destruct a as [page | | item | item]; cbn [sent_by].
  - unfold perform, bind. rewrite apiEndpoint_run, call_run. reflexivity.
  - cbn. by rewrite app_nil_r.
  - cbn. by rewrite app_nil_r.
  - unfold perform, bind. rewrite confirm_delete_run.
    unfold delete_callback. rewrite call_run. reflexivity.
Qed.

Lemma perform_reads a w :
  list_reads (Oauth2Api DEFAULT_CONFIG) ->
  is_delete a = false ->
  grants (perform a w).2 = grants w.
Proof.
  intros Hl Ha. destruct a as [page | | item | item]; try reflexivity.
  - unfold perform, bind. rewrite apiEndpoint_run, call_run. cbn. apply Hl.
  - discriminate Ha.
Qed.




Lemma perform_all_this acts : forall w,
  this (perform_all acts w).2 = this w.
Proof.
  induction acts as [| a rest IH]; intros w; [reflexivity |].
  cbn [perform_all]. unfold bind.
  pose proof (perform_this a w) as H1.
  destruct (perform a w) as [u w1]. cbn in H1.
  by rewrite IH.
Qed.

Lemma perform_all_sent acts : forall w,
  requests (perform_all acts w).2 = requests w ++ flat_map (sent_by (this w)) acts.
Proof.
  induction acts as [| a rest IH]; intros w.
  - cbn. by rewrite app_nil_r.
  - cbn [perform_all flat_map]. unfold bind.
    pose proof (perform_this a w) as H1.
    pose proof (perform_sent a w) as H2.
    destruct (perform a w) as [u w1]. cbn in H1, H2.
    by rewrite IH, H1, H2, app_assoc.
Qed.

(** X1.  No run of the component changes its own fields: after any
    sequence of fetches, renderings and confirmed deletes, [userId] and
    [order] are what they were. *)
Theorem fields_survive_every_run acts w :
  this (perform_all acts w).2 = this w.
Proof. apply perform_all_this. Qed.

(** X2.  The requests of a run are exactly these, in order: one list
    request with the page asked for per fetch, one delete request per
    confirmed delete, nothing for a header or a row; what was sent before
    stays in front. *)
Theorem requests_of_a_run acts w :
  requests (perform_all acts w).2 = requests w ++ flat_map (sent_by (this w)) acts.
Proof. apply perform_all_sent. Qed.

(** X4.  When the client's list operation reads, a run with no confirmed
    delete leaves the server table as it was, however often it fetches and
    renders. *)
Theorem fetching_and_rendering_keep_the_table acts :
  list_reads (Oauth2Api DEFAULT_CONFIG) ->
  forallb (fun a => negb (is_delete a)) acts = true ->
  forall w, grants (perform_all acts w).2 = grants w.
Proof.
  intros Hl. induction acts as [| a rest IH]; intros Hacts w; [reflexivity |].
  cbn [forallb] in Hacts. apply andb_prop in Hacts as [Ha Hrest].
  apply negb_true_iff in Ha.
  cbn [perform_all]. unfold bind.
  pose proof (perform_reads a w Hl Ha) as H1.
  destruct (perform a w) as [u w1]. cbn in H1.
  by rewrite (IH Hrest).
Qed.

(** X5.  When the client's delete operation removes the addressed record
    or nothing, confirming the delete of a row twice sends the same delete
    request twice and leaves the table where one delete could have left it:
    unchanged, or without the addressed record. *)
Theorem confirming_twice_deletes_once item w :
  delete_removes (Oauth2Api DEFAULT_CONFIG) ->
  let op := oauth2RefreshTokensDelete {| id := js_or (pk item) 0 |} in
  let w2 := (confirm_delete item (confirm_delete item w).2).2 in
  requests w2 = requests w ++ [Sent op; Sent op] /\
  (grants w2 = grants w \/ grants w2 = delete (js_or (pk item) 0) (grants w)).
Proof.
  intros Hd op w2. subst w2. rewrite !confirm_delete_run.
  unfold delete_callback. rewrite !call_run. cbn. split.
  - by rewrite <- app_assoc.
  - destruct (Hd {| id := js_or (pk item) 0 |} (grants w)) as [E1 | E1];
      rewrite E1;
      destruct (Hd {| id := js_or (pk item) 0 |} (grants w)) as [E2 | E2];
      destruct (Hd {| id := js_or (pk item) 0 |}
                  (delete (js_or (pk item) 0) (grants w))) as [E3 | E3];
      cbn in *; rewrite ?E1, ?E2, ?E3, ?delete_delete_eq; auto.
Qed.



Lemma perform_delete_grants item w w' :
  grants w = grants w' ->
  grants (perform (ConfirmDelete item) w).2 = grants (perform (ConfirmDelete item) w').2.
Proof.
  intros Hg. unfold perform, bind. rewrite !confirm_delete_run.
  unfold delete_callback. rewrite !call_run. cbn. by rewrite Hg.
Qed.

(** X8.  When the client's list operation reads, what a run does to the
    server table is what its confirmed deletes alone do, in their order:
    the fetches and renderings between them can be left out without any
    difference to the table. *)
Theorem only_deletes_reach_the_table acts :
  list_reads (Oauth2Api DEFAULT_CONFIG) ->
  forall w w',
    grants w = grants w' ->
    grants (perform_all acts w).2 = grants (perform_all (filter is_delete acts) w').2.
Proof.
  intros Hl. induction acts as [| a rest IH]; intros w w' Hg; [exact Hg |].
  destruct (is_delete a) eqn:Ha.
  - destruct a as [page | | item | item]; try discriminate Ha.
    rewrite filter_cons_True by exact I.
    cbn [perform_all]. unfold bind.
    pose proof (perform_delete_grants item w w' Hg) as H1.
    destruct (perform (ConfirmDelete item) w) as [u w1].
    destruct (perform (ConfirmDelete item) w') as [u' w1']. cbn in H1.
    by apply IH.
  - rewrite filter_cons_False by (rewrite Ha; exact (fun H => H)).
    cbn [perform_all]. unfold bind.
    pose proof (perform_reads a w Hl Ha) as H1.
    destruct (perform a w) as [u w1]. cbn in H1.
    apply IH. by rewrite H1.
Qed.

End Component.

Arguments Sent {AKResponse X} op.
Arguments requests {AKResponse} w.
Arguments grants {AKResponse} w.
Arguments this {AKResponse} w.
Arguments VString {AKResponse} s.
Arguments VUndefined {AKResponse}.
Arguments values {AKResponse} t.
Arguments strings {AKResponse} t.
Arguments cell_text {AKResponse} c.

(** X3.  What a run sends does not depend on what the client answers, on
    the server table, or on the locale: two runs of the same actions by
    components with the same fields send the same requests, whatever client
    serves each.  No answer of the server is followed by a request. *)
Theorem requests_ignore_the_answers
    (AKResponse : Type -> Type) (Configuration : Type)
    (config : Configuration) (page_size : Z)
    (t1 t2 : string -> string) (show1 show2 : Date -> string)
    (api1 api2 : Configuration -> Client AKResponse)
    (acts : list Action) (w1 w2 : World AKResponse) :
  this w1 = this w2 ->
  requests w1 = requests w2 ->
  requests (perform_all AKResponse Configuration config page_size t1 show1 api1 acts w1).2 =
  requests (perform_all AKResponse Configuration config page_size t2 show2 api2 acts w2).2.
Proof.
  intros Hthis Hreq. rewrite !perform_all_sent, Hthis, Hreq. reflexivity.
Qed.

(** ** The component against the two clients *)

Lemma table_client_list_reads : list_reads Page table_client.
Proof. intros req g. reflexivity. Qed.

Lemma table_client_delete_removes : delete_removes Page table_client.
Proof.
  intros req g. cbn. destruct (g !! id req); [right | left]; reflexivity.
Qed.


(** ** The component at work

    The collaborators are fixed: pages of [Page], a configuration with
    nothing in it, 20 records a page, the source locale for [t] and
    [show_date] for dates. *)

Local Abbreviation world7 :=
  (initial_world Page {| userId := Some "5"; order := "-expires" |} {[ 7%Z := grant7 ]}).
Local Abbreviation source_locale := (fun s : string => s).
Local Abbreviation online := (fun _ : unit => table_client).
Local Abbreviation offline := (fun _ : unit => offline_client).

Example join_three_scopes :
  join ", " ["openid"; "email"; "profile"] = "openid, email, profile".
Proof. reflexivity. Qed.

Example join_one_scope : join ", " ["openid"] = "openid".
Proof. reflexivity. Qed.

Example js_or_values :
  js_or (Some 7%Z) 0 = 7%Z /\ js_or (Some 0%Z) 0 = 0%Z /\ js_or None 0 = 0%Z.
Proof. repeat split. Qed.

Example row_grant7_texts :
  cell_text <$> take 3 (row Page unit tt source_locale show_date online grant7 world7).1 =
    [Some "grafana"; Some "11/14/2023, 10:13:20 PM"; Some "openid, email, profile"].
Proof. reflexivity. Qed.

Example fetch_first_page :
  requests (apiEndpoint Page unit tt 20 online 1 world7).2 =
    [Sent (oauth2RefreshTokensList
             {| user := Some "5"; ordering := "expires"; page := 1; pageSize := 20 |})].
Proof. reflexivity. Qed.

Example delete_grant7 :
  let r := confirm_delete Page unit tt source_locale show_date online grant7 world7 in
  r.1 = Some (Fulfilled tt) /\
  requests r.2 = [Sent (oauth2RefreshTokensDelete {| id := 7 |})] /\
  grants r.2 !! 7%Z = None.
Proof. vm_compute. repeat split. Qed.

(** C1 against the table client, on a run that fetches, renders and
    deletes. *)
Lemma grants_change_only_by_deletion_witness :
  list_reads Page table_client /\
  delete_removes Page table_client /\
  grants (perform_all Page unit tt 20 source_locale show_date online
            [FetchPage 1; RenderHeader; RenderRow grant7; ConfirmDelete grant7; FetchPage 1]
            world7).2 ⊆ grants world7 /\
  requests (confirm_delete Page unit tt source_locale show_date online grant7 world7).2 =
    [Sent (oauth2RefreshTokensDelete {| id := 7 |})].
Proof.
  split; [exact table_client_list_reads |].
  split; [exact table_client_delete_removes |].
  split.
  - exact (proj1 (grants_change_only_by_deletion Page unit tt 20 source_locale show_date
                    online table_client_list_reads table_client_delete_removes) _ _).
  - exact (proj1 (proj2 (proj2 (proj2
             (grants_change_only_by_deletion Page unit tt 20 source_locale show_date
                online table_client_list_reads table_client_delete_removes)))
             grant7 7%Z world7 eq_refl)).
Defined.

(** C6 against the client that rejects every call. *)
Lemma client_promises_pass_through_witness :
  (apiEndpoint Page unit tt 20 offline 1 world7).1 = Rejected "Failed to fetch" /\
  (confirm_delete Page unit tt source_locale show_date offline grant7 world7).1 =
    Some (Rejected "Failed to fetch").
Proof.
  split.
  - exact (proj1 (proj2 (proj1
             (client_promises_pass_through Page unit tt 20 source_locale show_date offline)
             1%Z world7)) "Failed to fetch" eq_refl).
  - exact (proj1 (proj2 (proj2
             (client_promises_pass_through Page unit tt 20 source_locale show_date offline)
             grant7 world7)) "Failed to fetch" eq_refl).
Defined.

(** C9 on the grant with neither key nor expiration. *)
Lemma row_is_total_without_optionals_witness :
  expires bare_grant = None /\
  (pk bare_grant = None \/ pk bare_grant = Some 0%Z) /\
  (exists c,
     (row Page unit tt source_locale show_date online bare_grant world7).1 !! 1%nat = Some c /\
     values c = [VUndefined] /\
     cell_text c = Some EmptyString) /\
  requests (confirm_delete Page unit tt source_locale show_date online bare_grant world7).2 =
    [Sent (oauth2RefreshTokensDelete {| id := 0 |})].
Proof.
  split; [reflexivity |]. split; [left; reflexivity |]. split.
  - exact (proj1 (proj2
             (row_is_total_without_optionals Page unit tt source_locale show_date online
                bare_grant world7)) eq_refl).
  - exact (proj1 (proj2 (proj2
             (row_is_total_without_optionals Page unit tt source_locale show_date online
                bare_grant world7)) (or_introl eq_refl))).
Defined.

Example requests_of_a_session :
  requests (perform_all Page unit tt 20 source_locale show_date online
              [FetchPage 1; RenderHeader; RenderRow grant7; ConfirmDelete grant7; FetchPage 1]
              world7).2 =
    [Sent (oauth2RefreshTokensList
             {| user := Some "5"; ordering := "expires"; page := 1; pageSize := 20 |});
     Sent (oauth2RefreshTokensDelete {| id := 7 |});
     Sent (oauth2RefreshTokensList
             {| user := Some "5"; ordering := "expires"; page := 1; pageSize := 20 |})].
Proof. vm_compute. reflexivity. Qed.

(** X3 on a session served by the table client and the same session served
    by the client that rejects every call, over an empty table. *)
Lemma requests_ignore_the_answers_witness :
  requests (perform_all Page unit tt 20 source_locale show_date online
              [FetchPage 1; ConfirmDelete grant7; FetchPage 2] world7).2 =
  requests (perform_all Page unit tt 20 source_locale show_date offline
              [FetchPage 1; ConfirmDelete grant7; FetchPage 2]
              (initial_world Page {| userId := Some "5"; order := "-expires" |} ∅)).2.
Proof.
  exact (requests_ignore_the_answers Page unit tt 20
           source_locale source_locale show_date show_date online offline
           [FetchPage 1; ConfirmDelete grant7; FetchPage 2]
           world7 (initial_world Page {| userId := Some "5"; order := "-expires" |} ∅)
           eq_refl eq_refl).
Defined.

(** X4 against the table client, on a run that fetches two pages and
    renders the header and a row. *)
Lemma fetching_and_rendering_keep_the_table_witness :
  list_reads Page table_client /\
  grants (perform_all Page unit tt 20 source_locale show_date online
            [FetchPage 1; RenderHeader; RenderRow grant7; FetchPage 2] world7).2 =
    grants world7.
Proof.
  split; [exact table_client_list_reads |].
  exact (fetching_and_rendering_keep_the_table Page unit tt 20 source_locale show_date online
           [FetchPage 1; RenderHeader; RenderRow grant7; FetchPage 2]
           table_client_list_reads eq_refl world7).
Defined.

(** X5 against the table client, confirming the delete of grant 7 twice. *)
Lemma confirming_twice_deletes_once_witness :
  delete_removes Page table_client /\
  requests (confirm_delete Page unit tt source_locale show_date online grant7
              (confirm_delete Page unit tt source_locale show_date online grant7 world7).2).2 =
    [Sent (oauth2RefreshTokensDelete {| id := 7 |});
     Sent (oauth2RefreshTokensDelete {| id := 7 |})].
Proof.
  split; [exact table_client_delete_removes |].
  exact (proj1 (confirming_twice_deletes_once Page unit tt source_locale show_date online
                  grant7 world7 table_client_delete_removes)).
Defined.

(** X8 against the table client: a session and its confirmed delete alone
    leave the same table. *)
Lemma only_deletes_reach_the_table_witness :
  list_reads Page table_client /\
  grants (perform_all Page unit tt 20 source_locale show_date online
            [FetchPage 1; RenderRow grant7; ConfirmDelete grant7; FetchPage 1] world7).2 =
  grants (perform_all Page unit tt 20 source_locale show_date online
            [ConfirmDelete grant7] world7).2.
Proof.
  split; [exact table_client_list_reads |].
  exact (only_deletes_reach_the_table Page unit tt 20 source_locale show_date online
           [FetchPage 1; RenderRow grant7; ConfirmDelete grant7; FetchPage 1]
           table_client_list_reads world7 world7 eq_refl).
Defined.
